(** * ConfigSharingTask.Run (pkg/tasks/configsharing.go)

    A shallow embedding of the config-sharing reconciliation task of the
    cluster monitoring operator, and the properties of its fail-fast
    pipeline: which collaborator calls are made, in which order, what is
    returned and what is handed to the ConfigMap upsert. *)

From Stdlib Require Import Ascii.
From stdpp Require Import base strings list gmap.

(** ** github.com/pkg/errors, as far as Run uses it *)

Module errors.

(** A Go [error] value: either an error produced by a collaborator, or an
    error annotated with a message by [Wrap]/[Wrapf]. *)
Inductive error : Type :=
| New (text : string)
| withMessage (cause : error) (msg : string).

(** [errors.Wrap(err, message)]; every call site in Run guards it with
    [err != nil], so the nil case of the library function is not needed. *)
Definition Wrap (err : error) (message : string) : error :=
  withMessage err message.

(** [fmt.Sprintf] restricted to the [%s] verb. *)
Fixpoint Sprintf (format : string) (args : list string) : string :=
  match format with
  | EmptyString => EmptyString
  | String "%"%char (String "s"%char rest) =>
      match args with
      | a :: args' => a +:+ Sprintf rest args'
      | [] => "%!s(MISSING)" +:+ Sprintf rest []
      end
  | String c rest => String c (Sprintf rest args)
  end.

(** [errors.Wrapf(err, format, args...)]. *)
Definition Wrapf (err : error) (format : string) (args : list string) : error :=
  withMessage err (Sprintf format args).

(** The [Error()] method: a wrapped error prints as "msg: cause". *)
Fixpoint Error (e : error) : string :=
  match e with
  | New text => text
  | withMessage cause msg => msg +:+ ": " +:+ Error cause
  end.

(** [errors.Cause]: the innermost error. *)
Fixpoint Cause (e : error) : error :=
  match e with
  | New text => New text
  | withMessage cause _ => Cause cause
  end.

End errors.

Import errors.

(** [strings.Contains(s, substr)]. *)
Fixpoint Contains (s substr : string) : bool :=
  String.prefix substr s ||
  match s with
  | EmptyString => false
  | String _ s' => Contains s' substr
  end.

(** A Go [(T, error)] result with the convention the callers rely on: the
    value is used only when the error is nil. *)
Inductive result (A : Type) : Type :=
| Ok (a : A)
| Err (err : error).
Arguments Ok {A} a.
Arguments Err {A} err.

Definition is_Err {A} (r : result A) : bool :=
  match r with Ok _ => false | Err _ => true end.

(** [v1.ConfigMap], with the fields the task and its document use. *)
Record ConfigMap : Type := {
  Namespace : string;
  Name : string;
  Data : gmap string string
}.

(** The four routes the task knows about. *)
Inductive Endpoint : Type :=
| Prometheus
| Alertmanager
| Grafana
| ThanosQuerier.

#[global] Instance Endpoint_eq_dec : EqDecision Endpoint.
Proof. solve_decision. Defined.

Section ConfigSharing.

(** [context.Context], [routev1.Route] and [*url.URL] are opaque to the
    task: it only passes them between its collaborators.  A [*url.URL]
    returned together with a nil error is taken to be non-nil; the one nil
    pointer of Run, the initial value of [grafanaURL], is [None]. *)
Context {context Route URL : Type}.

(** The part of [manifests.Factory] the task calls.  During a run a
    collaborator answers as a function of the arguments it is given. *)
Record Factory : Type := {
  PrometheusK8sRoute : result Route;
  AlertmanagerRoute : result Route;
  GrafanaRoute : result Route;
  ThanosQuerierRoute : result Route;
  SharingConfig : URL -> URL -> option URL -> URL -> ConfigMap
}.

(** The part of [client.Client] the task calls. *)
Record Client : Type := {
  GetRouteURL : context -> Route -> result URL;
  CreateOrUpdateConfigMap : context -> ConfigMap -> option error
}.

(** [manifests.Config], down to the Grafana feature flag. *)
Record GrafanaConfig : Type := { IsEnabled : bool }.
Record ClusterMonitoringConfiguration : Type := {
  GrafanaConfig_ : GrafanaConfig
}.
Record Config : Type := {
  ClusterMonitoringConfiguration_ : ClusterMonitoringConfiguration
}.

Record ConfigSharingTask : Type := {
  client : Client;
  factory : Factory;
  config : Config
}.

Definition NewConfigSharingTask (client : Client) (factory : Factory)
    (config : Config) : ConfigSharingTask :=
  {| client := client; factory := factory; config := config |}.

(** *** Calls on the collaborators

    Every call Run makes on a collaborator is appended to a log, tagged
    with the call site (the endpoint it is made for) and its arguments. *)
Inductive Call : Type :=
| RouteCall (ep : Endpoint)
| GetRouteURLCall (ep : Endpoint) (route : Route)
| IsEnabledCall
| SharingConfigCall (promURL amURL : URL) (grafanaURL : option URL)
    (thanosURL : URL)
| CreateOrUpdateConfigMapCall (cm : ConfigMap).

(** State (the call log) and early return with an error. *)
Definition M (A : Type) : Type := list Call -> result A * list Call.

#[local] Instance M_ret : MRet M := fun A a log => (Ok a, log).
#[local] Instance M_bind : MBind M := fun A B f m log =>
  match m log with
  | (Ok a, log') => f a log'
  | (Err e, log') => (Err e, log')
  end.

(** A call on a collaborator, answered with [r]. *)
Definition invoke {A} (c : Call) (r : result A) : M A :=
  fun log => (r, log ++ [c]).

(** [if err != nil { return wrap(err) }]. *)
Definition or_return {A} (m : M A) (wrap : error -> error) : M A :=
  fun log =>
    match m log with
    | (Ok a, log') => (Ok a, log')
    | (Err e, log') => (Err (wrap e), log')
    end.

Definition of_option (o : option error) : result unit :=
  match o with None => Ok tt | Some e => Err e end.

Definition Run_body (t : ConfigSharingTask) (ctx : context) : M unit :=
  promRoute ←
    or_return (invoke (RouteCall Prometheus) (PrometheusK8sRoute (factory t)))
      (fun err => Wrap err "initializing Prometheus Route failed");
  promURL ←
    or_return (invoke (GetRouteURLCall Prometheus promRoute)
                 (GetRouteURL (client t) ctx promRoute))
      (fun err => Wrap err "failed to retrieve Prometheus host");
  amRoute ←
    or_return (invoke (RouteCall Alertmanager) (AlertmanagerRoute (factory t)))
      (fun err => Wrap err "initializing Alertmanager Route failed");
  amURL ←
    or_return (invoke (GetRouteURLCall Alertmanager amRoute)
                 (GetRouteURL (client t) ctx amRoute))
      (fun err => Wrap err "failed to retrieve Alertmanager host");
  enabled ←
    invoke IsEnabledCall
      (Ok (IsEnabled (GrafanaConfig_ (ClusterMonitoringConfiguration_ (config t)))));
  grafanaURL ←
    (if enabled : bool then
       grafanaRoute ←
         or_return (invoke (RouteCall Grafana) (GrafanaRoute (factory t)))
           (fun err => Wrap err "initializing Grafana Route failed");
       grafanaURL ←
         or_return (invoke (GetRouteURLCall Grafana grafanaRoute)
                      (GetRouteURL (client t) ctx grafanaRoute))
           (fun err => Wrap err "failed to retrieve Grafana host");
       mret (Some grafanaURL)
     else mret None);
  thanosRoute ←
    or_return (invoke (RouteCall ThanosQuerier) (ThanosQuerierRoute (factory t)))
      (fun err => Wrap err "initializing Thanos Querier Route failed");
  thanosURL ←
    or_return (invoke (GetRouteURLCall ThanosQuerier thanosRoute)
                 (GetRouteURL (client t) ctx thanosRoute))
      (fun err => Wrap err "failed to retrieve Thanos Querier host");
  cm ←
    invoke (SharingConfigCall promURL amURL grafanaURL thanosURL)
      (Ok (SharingConfig (factory t) promURL amURL grafanaURL thanosURL));
  or_return (invoke (CreateOrUpdateConfigMapCall cm)
               (of_option (CreateOrUpdateConfigMap (client t) ctx cm)))
    (fun err => Wrapf err "reconciling %s/%s Config ConfigMap failed"
                  [Namespace cm; Name cm]).

(** [func (t *ConfigSharingTask) Run(ctx context.Context) error]: the
    returned error ([None] is nil) and the extended call log. *)
Definition Run (t : ConfigSharingTask) (ctx : context) (log : list Call)
    : option error * list Call :=
  match Run_body t ctx log with
  | (Ok _, log') => (None, log')
  | (Err e, log') => (Some e, log')
  end.

(** *** What a run returns and which calls it makes *)

Definition outcome (t : ConfigSharingTask) (ctx : context) : option error :=
  fst (Run t ctx []).

Definition trace (t : ConfigSharingTask) (ctx : context) : list Call :=
  snd (Run t ctx []).

(** The route descriptor lookup of an endpoint. *)
Definition RouteOf (f : Factory) (ep : Endpoint) : result Route :=
  match ep with
  | Prometheus => PrometheusK8sRoute f
  | Alertmanager => AlertmanagerRoute f
  | Grafana => GrafanaRoute f
  | ThanosQuerier => ThanosQuerierRoute f
  end.

(** Descriptor lookup followed by URL resolution of an endpoint. *)
Definition resolution (t : ConfigSharingTask) (ctx : context) (ep : Endpoint)
    : result URL :=
  match RouteOf (factory t) ep with
  | Ok route => GetRouteURL (client t) ctx route
  | Err e => Err e
  end.

Definition mandatory (ep : Endpoint) : bool :=
  match ep with Grafana => false | _ => true end.

Definition enabled (t : ConfigSharingTask) : bool :=
  IsEnabled (GrafanaConfig_ (ClusterMonitoringConfiguration_ (config t))).

(** The error, if any, with which the collaborator answers a call. *)
Definition call_error (t : ConfigSharingTask) (ctx : context) (c : Call)
    : option error :=
  match c with
  | RouteCall ep =>
      match RouteOf (factory t) ep with Ok _ => None | Err e => Some e end
  | GetRouteURLCall _ route =>
      match GetRouteURL (client t) ctx route with Ok _ => None | Err e => Some e end
  | IsEnabledCall => None
  | SharingConfigCall _ _ _ _ => None
  | CreateOrUpdateConfigMapCall cm => CreateOrUpdateConfigMap (client t) ctx cm
  end.

(** The endpoint a call is made for. *)
Definition endpoint_of (c : Call) : option Endpoint :=
  match c with
  | RouteCall ep => Some ep
  | GetRouteURLCall ep _ => Some ep
  | _ => None
  end.

(** The only call that writes to the cluster. *)
Definition mutating (c : Call) : bool :=
  match c with CreateOrUpdateConfigMapCall _ => true | _ => false end.

(** The documents handed to the upsert, in call order. *)
Definition upserts (calls : list Call) : list ConfigMap :=
  omap (fun c => match c with
                 | CreateOrUpdateConfigMapCall cm => Some cm
                 | _ => None
                 end) calls.

(** The position of a call site in the text of Run. *)
Definition rank (c : Call) : nat :=
  match c with
  | RouteCall Prometheus => 0
  | GetRouteURLCall Prometheus _ => 1
  | RouteCall Alertmanager => 2
  | GetRouteURLCall Alertmanager _ => 3
  | IsEnabledCall => 4
  | RouteCall Grafana => 5
  | GetRouteURLCall Grafana _ => 6
  | RouteCall ThanosQuerier => 7
  | GetRouteURLCall ThanosQuerier _ => 8
  | SharingConfigCall _ _ _ _ => 9
  | CreateOrUpdateConfigMapCall _ => 10
  end.

(** *** The paths through Run

    Run is straight-line code with ten exits.  [RunPath] lists them: the
    answers of the collaborators that select the exit, the error returned
    and the calls made. *)

Definition prologue (promRoute amRoute : Route) : list Call :=
  [RouteCall Prometheus; GetRouteURLCall Prometheus promRoute;
   RouteCall Alertmanager; GetRouteURLCall Alertmanager amRoute;
   IsEnabledCall].

(** The [if ...IsEnabled()] block when it does not return. *)
Inductive Dashboard (t : ConfigSharingTask) (ctx : context)
    : list Call -> option URL -> Prop :=
| dashboard_disabled :
    enabled t = false ->
    Dashboard t ctx [] None
| dashboard_resolved grafanaRoute grafanaURL :
    enabled t = true ->
    GrafanaRoute (factory t) = Ok grafanaRoute ->
    GetRouteURL (client t) ctx grafanaRoute = Ok grafanaURL ->
    Dashboard t ctx
      [RouteCall Grafana; GetRouteURLCall Grafana grafanaRoute]
      (Some grafanaURL).

Inductive RunPath (t : ConfigSharingTask) (ctx : context)
    : option error * list Call -> Prop :=
| path_prom_route e :
    PrometheusK8sRoute (factory t) = Err e ->
    RunPath t ctx
      (Some (Wrap e "initializing Prometheus Route failed"),
       [RouteCall Prometheus])
| path_prom_url promRoute e :
    PrometheusK8sRoute (factory t) = Ok promRoute ->
    GetRouteURL (client t) ctx promRoute = Err e ->
    RunPath t ctx
      (Some (Wrap e "failed to retrieve Prometheus host"),
       [RouteCall Prometheus; GetRouteURLCall Prometheus promRoute])
| path_am_route promRoute promURL e :
    PrometheusK8sRoute (factory t) = Ok promRoute ->
    GetRouteURL (client t) ctx promRoute = Ok promURL ->
    AlertmanagerRoute (factory t) = Err e ->
    RunPath t ctx
      (Some (Wrap e "initializing Alertmanager Route failed"),
       [RouteCall Prometheus; GetRouteURLCall Prometheus promRoute;
        RouteCall Alertmanager])
| path_am_url promRoute promURL amRoute e :
    PrometheusK8sRoute (factory t) = Ok promRoute ->
    GetRouteURL (client t) ctx promRoute = Ok promURL ->
    AlertmanagerRoute (factory t) = Ok amRoute ->
    GetRouteURL (client t) ctx amRoute = Err e ->
    RunPath t ctx
      (Some (Wrap e "failed to retrieve Alertmanager host"),
       [RouteCall Prometheus; GetRouteURLCall Prometheus promRoute;
        RouteCall Alertmanager; GetRouteURLCall Alertmanager amRoute])
| path_grafana_route promRoute promURL amRoute amURL e :
    PrometheusK8sRoute (factory t) = Ok promRoute ->
    GetRouteURL (client t) ctx promRoute = Ok promURL ->
    AlertmanagerRoute (factory t) = Ok amRoute ->
    GetRouteURL (client t) ctx amRoute = Ok amURL ->
    enabled t = true ->
    GrafanaRoute (factory t) = Err e ->
    RunPath t ctx
      (Some (Wrap e "initializing Grafana Route failed"),
       prologue promRoute amRoute ++ [RouteCall Grafana])
| path_grafana_url promRoute promURL amRoute amURL grafanaRoute e :
    PrometheusK8sRoute (factory t) = Ok promRoute ->
    GetRouteURL (client t) ctx promRoute = Ok promURL ->
    AlertmanagerRoute (factory t) = Ok amRoute ->
    GetRouteURL (client t) ctx amRoute = Ok amURL ->
    enabled t = true ->
    GrafanaRoute (factory t) = Ok grafanaRoute ->
    GetRouteURL (client t) ctx grafanaRoute = Err e ->
    RunPath t ctx
      (Some (Wrap e "failed to retrieve Grafana host"),
       prologue promRoute amRoute
         ++ [RouteCall Grafana; GetRouteURLCall Grafana grafanaRoute])
| path_thanos_route promRoute promURL amRoute amURL dash grafanaURL e :
    PrometheusK8sRoute (factory t) = Ok promRoute ->
    GetRouteURL (client t) ctx promRoute = Ok promURL ->
    AlertmanagerRoute (factory t) = Ok amRoute ->
    GetRouteURL (client t) ctx amRoute = Ok amURL ->
    Dashboard t ctx dash grafanaURL ->
    ThanosQuerierRoute (factory t) = Err e ->
    RunPath t ctx
      (Some (Wrap e "initializing Thanos Querier Route failed"),
       prologue promRoute amRoute ++ dash ++ [RouteCall ThanosQuerier])
| path_thanos_url promRoute promURL amRoute amURL dash grafanaURL
    thanosRoute e :
    PrometheusK8sRoute (factory t) = Ok promRoute ->
    GetRouteURL (client t) ctx promRoute = Ok promURL ->
    AlertmanagerRoute (factory t) = Ok amRoute ->
    GetRouteURL (client t) ctx amRoute = Ok amURL ->
    Dashboard t ctx dash grafanaURL ->
    ThanosQuerierRoute (factory t) = Ok thanosRoute ->
    GetRouteURL (client t) ctx thanosRoute = Err e ->
    RunPath t ctx
      (Some (Wrap e "failed to retrieve Thanos Querier host"),
       prologue promRoute amRoute ++ dash
         ++ [RouteCall ThanosQuerier; GetRouteURLCall ThanosQuerier thanosRoute])
| path_upsert promRoute promURL amRoute amURL dash grafanaURL
    thanosRoute thanosURL cm e :
    PrometheusK8sRoute (factory t) = Ok promRoute ->
    GetRouteURL (client t) ctx promRoute = Ok promURL ->
    AlertmanagerRoute (factory t) = Ok amRoute ->
    GetRouteURL (client t) ctx amRoute = Ok amURL ->
    Dashboard t ctx dash grafanaURL ->
    ThanosQuerierRoute (factory t) = Ok thanosRoute ->
    GetRouteURL (client t) ctx thanosRoute = Ok thanosURL ->
    cm = SharingConfig (factory t) promURL amURL grafanaURL thanosURL ->
    CreateOrUpdateConfigMap (client t) ctx cm = Some e ->
    RunPath t ctx
      (Some (Wrapf e "reconciling %s/%s Config ConfigMap failed"
               [Namespace cm; Name cm]),
       prologue promRoute amRoute ++ dash
         ++ [RouteCall ThanosQuerier; GetRouteURLCall ThanosQuerier thanosRoute;
             SharingConfigCall promURL amURL grafanaURL thanosURL;
             CreateOrUpdateConfigMapCall cm])
| path_success promRoute promURL amRoute amURL dash grafanaURL
    thanosRoute thanosURL cm :
    PrometheusK8sRoute (factory t) = Ok promRoute ->
    GetRouteURL (client t) ctx promRoute = Ok promURL ->
    AlertmanagerRoute (factory t) = Ok amRoute ->
    GetRouteURL (client t) ctx amRoute = Ok amURL ->
    Dashboard t ctx dash grafanaURL ->
    ThanosQuerierRoute (factory t) = Ok thanosRoute ->
    GetRouteURL (client t) ctx thanosRoute = Ok thanosURL ->
    cm = SharingConfig (factory t) promURL amURL grafanaURL thanosURL ->
    CreateOrUpdateConfigMap (client t) ctx cm = None ->
    RunPath t ctx
      (None,
       prologue promRoute amRoute ++ dash
         ++ [RouteCall ThanosQuerier; GetRouteURLCall ThanosQuerier thanosRoute;
             SharingConfigCall promURL amURL grafanaURL thanosURL;
             CreateOrUpdateConfigMapCall cm]).

(** *** Vocabulary of the properties *)

(** The name under which an endpoint appears in the messages of Run. *)
Definition display (ep : Endpoint) : string :=
  match ep with
  | Prometheus => "Prometheus"
  | Alertmanager => "Alertmanager"
  | Grafana => "Grafana"
  | ThanosQuerier => "Thanos Querier"
  end.

(** The context an error of a call is wrapped with: the stage and the
    endpoint, or the identity of the ConfigMap for the upsert. *)
Definition annotation (c : Call) : string :=
  match c with
  | RouteCall ep => "initializing " +:+ display ep +:+ " Route failed"
  | GetRouteURLCall ep _ => "failed to retrieve " +:+ display ep +:+ " host"
  | CreateOrUpdateConfigMapCall cm =>
      "reconciling " +:+ Namespace cm +:+ "/" +:+ Name cm
        +:+ " Config ConfigMap failed"
  | IsEnabledCall => ""
  | SharingConfigCall _ _ _ _ => ""
  end.

(** The call sites of a complete run, in the order of the text of Run. *)
Definition program_order (dashboard : bool) : list nat :=
  [0; 1; 2; 3; 4] ++ (if dashboard then [5; 6] else []) ++ [7; 8; 9; 10].

(** The order in which the mandatory endpoints come first: whenever a call
    is made for the dashboard endpoint, the URL of the long-term-query
    endpoint has been asked for (and, Run being fail-fast, obtained)
    before. *)
Definition mandatory_first (calls : list Call) : Prop :=
  forall before c after,
    calls = before ++ c :: after ->
    endpoint_of c = Some Grafana ->
    exists route, GetRouteURLCall ThanosQuerier route ∈ before.

(** Every endpoint that Run asks for resolves. *)
Definition all_resolve (t : ConfigSharingTask) (ctx : context) : Prop :=
  forall ep,
    mandatory ep = true \/ enabled t = true ->
    is_Err (resolution t ctx ep) = false.

(** Two runs in succession on the same collaborators: the second starts
    from the log the first leaves. *)
Definition Run_twice (t : ConfigSharingTask) (ctx : context)
    (log : list Call) : (option error * option error) * list Call :=
  let '(err1, log1) := Run t ctx log in
  let '(err2, log2) := Run t ctx log1 in
  ((err1, err2), log2).

(** *** The shared document *)

(** Modelled from the spec: [manifests.Factory.SharingConfig] is not among
    the sources.  The spec describes it as a pure assembly of the document
    from the query, alert, optional dashboard and long-term-query URLs:
    one key per mandatory endpoint, always present ([prometheus],
    [alertmanager], [thanosQuerier]), and one key for the dashboard
    endpoint, present only when its URL is; the document is stored at one
    fixed target identity.  The spec names neither the target nor the
    dashboard key: they are parameters, as is the printing of a URL. *)
Definition BuildSharedDocument (URLString : URL -> string)
    (namespace name dashboardKey : string)
    (queryURL alertURL : URL) (dashboardURL : option URL)
    (longTermQueryURL : URL) : ConfigMap :=
  let mandatory_keys : gmap string string :=
    {[ "prometheus" := URLString queryURL;
       "alertmanager" := URLString alertURL;
       "thanosQuerier" := URLString longTermQueryURL ]} in
  {| Namespace := namespace;
     Name := name;
     Data := match dashboardURL with
             | Some url => <[dashboardKey := URLString url]> mandatory_keys
             | None => mandatory_keys
             end |}.

End ConfigSharing.

(** ** Concrete collaborators

    A task over stub collaborators: every route descriptor exists and is
    identified by its endpoint, URLs are their printed form, [answers] gives
    the reply of the route resolver, [dashboard] the feature flag and
    [upsert] the reply of the document store. *)
Definition stub_task (answers : Endpoint -> result string) (dashboard : bool)
    (upsert : option error)
    : @ConfigSharingTask unit Endpoint string :=
  NewConfigSharingTask
    {| GetRouteURL := fun _ route => answers route;
       CreateOrUpdateConfigMap := fun _ _ => upsert |}
    {| PrometheusK8sRoute := Ok Prometheus;
       AlertmanagerRoute := Ok Alertmanager;
       GrafanaRoute := Ok Grafana;
       ThanosQuerierRoute := Ok ThanosQuerier;
       SharingConfig :=
         BuildSharedDocument id "monitoring" "shared-config" "grafana" |}
    {| ClusterMonitoringConfiguration_ :=
         {| GrafanaConfig_ := {| IsEnabled := dashboard |} |} |}.

Definition example_urls (ep : Endpoint) : result string :=
  match ep with
  | Prometheus => Ok "https://prom.example.com"
  | Alertmanager => Ok "https://am.example.com"
  | Grafana => Ok "https://grafana.example.com"
  | ThanosQuerier => Ok "https://thanos.example.com"
  end.

Definition network_error : error :=
  New "dial tcp 10.0.0.1:443: i/o timeout".

(** The route resolver fails for one endpoint. *)
Definition failing_at (bad : Endpoint) (ep : Endpoint) : result string :=
  if decide (ep = bad) then Err network_error else example_urls ep.

(** All endpoints resolve, the dashboard is disabled, the upsert succeeds. *)
Definition healthy_task : @ConfigSharingTask unit Endpoint string :=
  stub_task example_urls false None.

(** All endpoints resolve, the dashboard is enabled, the upsert succeeds. *)
Definition dashboard_task : @ConfigSharingTask unit Endpoint string :=
  stub_task example_urls true None.

(** The Alertmanager URL cannot be resolved. *)
Definition alertmanager_down_task : @ConfigSharingTask unit Endpoint string :=
  stub_task (failing_at Alertmanager) false None.

(** The dashboard is enabled and its URL cannot be resolved. *)
Definition grafana_down_task : @ConfigSharingTask unit Endpoint string :=
  stub_task (failing_at Grafana) true None.

(** The upsert is refused. *)
Definition upsert_refused_task : @ConfigSharingTask unit Endpoint string :=
  stub_task example_urls true (Some (New "conflict")).

(** [strings.ToLower] on ASCII text: the letters A to Z become a to z. *)
Definition lower (c : ascii) : ascii :=
  let n := nat_of_ascii c in
  if (65 <=? n) && (n <=? 90) then ascii_of_nat (n + 32) else c.

Fixpoint ToLower (s : string) : string :=
  match s with
  | EmptyString => EmptyString
  | String c rest => String (lower c) (ToLower rest)
  end.

(** A message mentions a name when the name occurs in it, the case of
    letters aside. *)
Definition mentions (message name : string) : bool :=
  Contains (ToLower message) (ToLower name).

(** ** Further vocabulary for Run *)

Section ConfigSharingOrder.

Context {context Route URL : Type}.

(** The order in which Run turns to the endpoints. *)
Definition endpoint_order (ep : Endpoint) : nat :=
  match ep with
  | Prometheus => 0
  | Alertmanager => 1
  | Grafana => 2
  | ThanosQuerier => 3
  end.

(** The endpoints a run asks for: the mandatory ones, and Grafana when the
    flag is set. *)
Definition asked (t : @ConfigSharingTask context Route URL) (ep : Endpoint)
    : bool :=
  mandatory ep || enabled t.

(** The calls whose answer can be an error. *)
Definition can_fail (c : @Call Route URL) : bool :=
  match c with
  | RouteCall _ => true
  | GetRouteURLCall _ _ => true
  | CreateOrUpdateConfigMapCall _ => true
  | IsEnabledCall => false
  | SharingConfigCall _ _ _ _ => false
  end.

(** The same task over a factory whose Grafana route lookup answers
    [grafanaRoute]. *)
Definition with_GrafanaRoute (t : @ConfigSharingTask context Route URL)
    (grafanaRoute : result Route) : ConfigSharingTask :=
  NewConfigSharingTask (client t)
    {| PrometheusK8sRoute := PrometheusK8sRoute (factory t);
       AlertmanagerRoute := AlertmanagerRoute (factory t);
       GrafanaRoute := grafanaRoute;
       ThanosQuerierRoute := ThanosQuerierRoute (factory t);
       SharingConfig := SharingConfig (factory t) |}
    (config t).

End ConfigSharingOrder.

(** ** The end-to-end checks (test/e2e/prometheus_test.go)

    The decision logic of the tests, as a function of what the cluster
    answers. *)

Module e2e.

(** How a test body ends: it returns, it stops in [t.Fatal] or [t.Fatalf]
    (recorded with the arguments given), or it panics on a nil pointer. *)
Inductive verdict : Type :=
| Pass
| FatalError (err : error)
| Fatal (message : string)
| Fatalf (format : string) (args : list Z)
| Panic.

Section AntiAffinity.

(** [v1.PodAffinityTerm] is not looked into. *)
Context {PodAffinityTerm : Type}.

(** [v1.Pod], down to the required anti-affinity terms; a nil pointer and a
    nil slice are [None]. *)
Record PodAntiAffinity : Type := {
  RequiredDuringSchedulingIgnoredDuringExecution
    : option (list PodAffinityTerm)
}.
Record Affinity : Type := { PodAntiAffinity_ : option PodAntiAffinity }.
Record PodSpec : Type := { Affinity_ : option Affinity }.
Record Pod : Type := { Spec : PodSpec }.

(** [metav1.ListOptions], with the two selectors the test sets. *)
Record ListOptions : Type := {
  LabelSelector : string;
  FieldSelector : string
}.

(** A row of the table of TestAntiAffinity. *)
Record antiAffinityCase : Type := {
  name : string;
  instance : string
}.

Definition antiAffinityCases : list antiAffinityCase :=
  [ {| name := "alertmanager"; instance := "main" |};
    {| name := "prometheus"; instance := "k8s" |} ].

(** The options of the one List call of a subtest. *)
Definition antiAffinityOptions (tc : antiAffinityCase) : ListOptions :=
  {| LabelSelector :=
       Sprintf "app.kubernetes.io/instance=%s,app.kubernetes.io/name=%s"
         [instance tc; name tc];
     FieldSelector := "status.phase=Running" |}.

(** The body of a subtest of TestAntiAffinity; [List] is
    [f.KubeClient.CoreV1().Pods(f.Ns).List]. *)
Definition antiAffinitySubtest (List : ListOptions -> result (list Pod))
    (tc : antiAffinityCase) : verdict :=
  match List (antiAffinityOptions tc) with
  | Err err => FatalError err
  | Ok items =>
      if negb (length items =? 2)
      then Fatalf "expecting 2 pods, got %d" [Z.of_nat (length items)]
      else
        match items with
        | [] => Panic
        | pod :: _ =>
            match Affinity_ (Spec pod) with
            | None => Panic
            | Some affinity =>
                match PodAntiAffinity_ affinity with
                | None => Panic
                | Some antiAffinity =>
                    match RequiredDuringSchedulingIgnoredDuringExecution
                            antiAffinity with
                    | None =>
                        Fatal "pod doesn't define requiredDuringSchedulingIgnoredDuringExecution"
                    | Some _ => Pass
                    end
                end
            end
        end
  end.

End AntiAffinity.

Section BodySizeLimit.

(** [promConfig.Config], down to the body size limit of its scrape
    configurations ([units.Base2Bytes], an int64). *)
Record ScrapeConfig : Type := { BodySizeLimit : Z }.
Record PromConfig : Type := { ScrapeConfigs : list ScrapeConfig }.

Definition bodySizeLimitSmallNumber : Z := 1 * 1024 * 1024.

(** The loop of TestBodySizeLimit before the configuration is changed. *)
Fixpoint expectNoBodySizeLimit (scrapeConfigs : list ScrapeConfig) : verdict :=
  match scrapeConfigs with
  | [] => Pass
  | scrapeConfig :: rest =>
      if negb (BodySizeLimit scrapeConfig =? 0)%Z
      then Fatalf "expected scrapeConfig.BodySizeLimit to be 0 but got %v before changing config"
             [BodySizeLimit scrapeConfig]
      else expectNoBodySizeLimit rest
  end.

(** The error of the function that TestBodySizeLimit polls: the error of
    getPrometheusConfig, or [fmt.Errorf] with its arguments. *)
Inductive pollError : Type :=
| ConfigError (err : error)
| Errorf (format : string) (args : list Z).

Fixpoint expectBodySizeLimit (scrapeConfigs : list ScrapeConfig)
    : option pollError :=
  match scrapeConfigs with
  | [] => None
  | scrapeConfig :: rest =>
      if negb (BodySizeLimit scrapeConfig =? bodySizeLimitSmallNumber)%Z
      then Some (Errorf "expected scrapeConfig.BodySizeLimit to be %v but got %v after changing config"
                   [bodySizeLimitSmallNumber; BodySizeLimit scrapeConfig])
      else expectBodySizeLimit rest
  end.

(** The function that TestBodySizeLimit polls, given the answer of
    getPrometheusConfig. *)
Definition bodySizeLimitEnforced (prometheusConfig : result PromConfig)
    : option pollError :=
  match prometheusConfig with
  | Err err => Some (ConfigError err)
  | Ok config => expectBodySizeLimit (ScrapeConfigs config)
  end.

End BodySizeLimit.

Section GetPrometheusConfig.

(** The gzip reader, and the three library calls of getPrometheusConfig:
    [gzip.NewReader] on the bytes, [io.ReadAll] and [promConfig.Load]. *)
Context {Reader : Type}.
Variable gzip_NewReader : list Byte.byte -> result Reader.
Variable io_ReadAll : Reader -> result (list Byte.byte).
Variable promConfig_Load : string -> bool -> result PromConfig.

(** getPrometheusConfig on the [Data] of the secret that [f.MustGetSecret]
    returned; a key that is missing from a Go map reads as the nil slice. *)
Definition getPrometheusConfig (secretData : gmap string (list Byte.byte))
    : result PromConfig :=
  let zippedData := default [] (secretData !! "prometheus.yaml.gz") in
  match gzip_NewReader zippedData with
  | Err err => Err err
  | Ok reader =>
      match io_ReadAll reader with
      | Err err => Err err
      | Ok unzippedData =>
          match promConfig_Load (String.string_of_list_byte unzippedData)
                  false with
          | Err err => Err err
          | Ok prometheusConfig => Ok prometheusConfig
          end
      end
  end.

End GetPrometheusConfig.

End e2e.

(** ** Concrete collaborators for the further properties *)

(** A client that resolves under the context [true] and fails under
    [false], and one that resolves under both. *)
Definition context_sensitive_task : @ConfigSharingTask bool Endpoint string :=
  NewConfigSharingTask
    {| GetRouteURL := fun ctx route =>
         if ctx : bool then example_urls route else Err network_error;
       CreateOrUpdateConfigMap := fun ctx _ =>
         if ctx : bool then None else Some network_error |}
    (factory healthy_task) (config healthy_task).

Definition context_blind_task : @ConfigSharingTask bool Endpoint string :=
  NewConfigSharingTask
    {| GetRouteURL := fun _ route => example_urls route;
       CreateOrUpdateConfigMap := fun _ _ => None |}
    (factory healthy_task) (config healthy_task).

(** The Alertmanager URL cannot be resolved, for another reason and with
    the dashboard enabled. *)
Definition alertmanager_refused_task : @ConfigSharingTask unit Endpoint string :=
  stub_task
    (fun ep =>
       match ep with
       | Alertmanager => Err (New "connection refused")
       | _ => example_urls ep
       end)
    true None.

(** Alertmanager and Thanos Querier both fail, with different errors. *)
Definition two_down_task : @ConfigSharingTask unit Endpoint string :=
  stub_task
    (fun ep =>
       match ep with
       | Alertmanager => Err network_error
       | ThanosQuerier => Err (New "no route to host")
       | _ => example_urls ep
       end)
    false None.

(** Pods with and without required anti-affinity terms. *)
Definition spread_pod : @e2e.Pod unit :=
  {| e2e.Spec :=
       {| e2e.Affinity_ :=
            Some {| e2e.PodAntiAffinity_ :=
                      Some {| e2e.RequiredDuringSchedulingIgnoredDuringExecution :=
                                Some [tt] |} |} |} |}.

Definition bare_pod : @e2e.Pod unit :=
  {| e2e.Spec := {| e2e.Affinity_ := None |} |}.

(** A configuration whose second scrape configuration has no limit. *)
Definition partly_limited_config : e2e.PromConfig :=
  {| e2e.ScrapeConfigs :=
       [ {| e2e.BodySizeLimit := 1048576 |};
         {| e2e.BodySizeLimit := 0 |};
         {| e2e.BodySizeLimit := 5 |} ] |}.

(** ** Properties *)

(** *** Substrings *)

Lemma prefix_app (p s rest : string) :
  String.prefix p s = true -> String.prefix p (s +:+ rest) = true.
Proof.
  revert s. induction p as [|a p IH]; intros [|b s]; simpl; try done.
  - by destruct rest.
  - destruct (Ascii.ascii_dec a b); [apply IH | done].
Qed.

Lemma prefix_refl_app (p rest : string) : String.prefix p (p +:+ rest) = true.
Proof.
  induction p as [|a p IH]; simpl.
  - by destruct rest.
  - by destruct (Ascii.ascii_dec a a).
Qed.

Lemma Contains_app_l (s rest sub : string) :
  Contains s sub = true -> Contains (s +:+ rest) sub = true.
Proof.
  induction s as [|a s IH]; simpl; intros H.
  - apply orb_true_iff in H as [H | H]; [| done].
    destruct sub; [| done]. by destruct rest.
  - apply orb_true_iff in H as [H | H]; apply orb_true_iff.
    + left. by apply (prefix_app sub (String a s) rest).
    + right. by apply IH.
Qed.

Lemma Contains_app_r (before s sub : string) :
  Contains s sub = true -> Contains (before +:+ s) sub = true.
Proof.
  induction before as [|a before IH]; simpl; intros H; [done |].
  apply orb_true_iff. right. by apply IH.
Qed.

Lemma Contains_here (sub rest : string) : Contains (sub +:+ rest) sub = true.
Proof.
  destruct sub as [|a sub].
  - simpl. by destruct rest.
  - change (String.prefix (String a sub) (String a sub +:+ rest)
            || Contains (sub +:+ rest) (String a sub) = true).
    by rewrite prefix_refl_app.
Qed.

Lemma append_assoc (s1 s2 s3 : string) :
  s1 +:+ s2 +:+ s3 = (s1 +:+ s2) +:+ s3.
Proof.
  induction s1 as [|a s1 IH]; [done |].
  change (String a (s1 +:+ s2 +:+ s3) = String a ((s1 +:+ s2) +:+ s3)).
  by rewrite IH.
Qed.

Lemma ToLower_app (s1 s2 : string) :
  ToLower (s1 +:+ s2) = ToLower s1 +:+ ToLower s2.
Proof.
  induction s1 as [| c s1 IH]; [done |].
  change (String (lower c) (ToLower (s1 +:+ s2))
          = String (lower c) (ToLower s1 +:+ ToLower s2)).
  by rewrite IH.
Qed.

(** Membership in an explicit list, case by case. *)
Ltac which_call H :=
  repeat (apply elem_of_cons in H as [H | H]);
  try (apply elem_of_nil in H; contradiction);
  try discriminate; simplify_eq.

(** A call that occurs in an explicit list. *)
Ltac find_call :=
  repeat first [ apply list_elem_of_here | apply list_elem_of_further ].

Section Properties.

Context {context Route URL : Type}.
Implicit Types (t : @ConfigSharingTask context Route URL) (ctx : context).
Implicit Types (c : @Call Route URL) (ep : Endpoint).

(** Unfolding of the monad. *)
Ltac unfold_run :=
  unfold Run, Run_body, mbind, M_bind, mret, M_ret, or_return, invoke,
    of_option, enabled in *.

Ltac split_answers :=
  repeat match goal with
    | |- context [CreateOrUpdateConfigMap ?c ?x ?cm] =>
        destruct (CreateOrUpdateConfigMap c x cm) eqn:?; simpl
    | |- context [match ?r with Ok _ => _ | Err _ => _ end] =>
        destruct r eqn:?; simpl
    | |- context [if ?b then _ else _] => destruct b eqn:?; simpl
    end.

(** The log is only ever appended to, and Run never reads it: running
    after any history gives the outcome and the calls of a run from the
    empty log. *)
Lemma Run_frame t ctx (log : list Call) :
  Run t ctx log = (outcome t ctx, log ++ trace t ctx).
Proof.
  unfold outcome, trace. unfold_run. simpl.
  split_answers; rewrite <- ?(assoc_L (++)); reflexivity.
Qed.

(** Every run follows one of the ten paths. *)
Lemma Run_paths t ctx : RunPath t ctx (Run t ctx []).
Proof.
  unfold_run. simpl. split_answers.
  all: try (econstructor; unfold enabled; eauto; fail).
  all: first
    [ eapply path_thanos_route with (dash := []) (grafanaURL := None)
    | eapply path_thanos_route with (dash := [_; _]) (grafanaURL := Some _)
    | eapply path_thanos_url with (dash := []) (grafanaURL := None)
    | eapply path_thanos_url with (dash := [_; _]) (grafanaURL := Some _)
    | eapply path_upsert with (dash := []) (grafanaURL := None)
    | eapply path_upsert with (dash := [_; _]) (grafanaURL := Some _)
    | eapply path_success with (dash := []) (grafanaURL := None)
    | eapply path_success with (dash := [_; _]) (grafanaURL := Some _) ];
    unfold enabled; eauto using Dashboard.
Qed.

(** Case analysis on the path a run takes; the optional block is split
    into its two shapes so that every call list is explicit. *)
Ltac run_paths t ctx :=
  unfold outcome, trace in *;
  destruct (Run_paths t ctx);
  repeat match goal with
    | H : Dashboard _ _ _ _ |- _ => destruct H
    | H : ?cm = SharingConfig _ _ _ _ _ |- _ => subst cm
    end;
  unfold prologue; simpl.

(** Rewriting with the answers of the collaborators on a path. *)
Ltac use_answers :=
  unfold resolution, call_error, RouteOf, enabled in *; simpl in *;
  repeat match goal with
    | H : ?l = _ |- context [?l] => rewrite H
    | H : ?l = _, H' : context [?l] |- _ =>
        tryif constr_eq H H' then fail else rewrite H in H'
    end; simpl in *.

Ltac answers := use_answers; simplify_eq; use_answers; simplify_eq.

(** [l = before ++ [c]] for an explicit list [l]. *)
Ltac split_last :=
  first
    [ eexists [], _; split; [reflexivity |]
    | eexists [_], _; split; [reflexivity |]
    | eexists [_; _], _; split; [reflexivity |]
    | eexists [_; _; _], _; split; [reflexivity |]
    | eexists [_; _; _; _], _; split; [reflexivity |]
    | eexists [_; _; _; _; _], _; split; [reflexivity |]
    | eexists [_; _; _; _; _; _], _; split; [reflexivity |]
    | eexists [_; _; _; _; _; _; _], _; split; [reflexivity |]
    | eexists [_; _; _; _; _; _; _; _], _; split; [reflexivity |]
    | eexists [_; _; _; _; _; _; _; _; _], _; split; [reflexivity |]
    | eexists [_; _; _; _; _; _; _; _; _; _], _; split; [reflexivity |] ].

(** A property of every element of an explicit list. *)
Ltac each_call :=
  repeat first [ apply Forall_nil_2 | apply Forall_cons_2 ];
  use_answers; try done.

(** C1.  If the descriptor lookup or the URL resolution of a mandatory
    endpoint (Prometheus, Alertmanager, Thanos Querier) answers with an
    error, Run returns an error, CreateOrUpdateConfigMap is not called,
    and the run stops at its first failing call: every call before the
    last one succeeded, the last one failed, and nothing follows it. *)
Theorem mandatory_failure_aborts t ctx ep :
  mandatory ep = true ->
  is_Err (resolution t ctx ep) = true ->
  (exists e, outcome t ctx = Some e) /\
  (forall cm, CreateOrUpdateConfigMapCall cm ∉ trace t ctx) /\
  exists before c,
    trace t ctx = before ++ [c] /\
    is_Some (call_error t ctx c) /\
    Forall (fun c' => call_error t ctx c' = None) before.
Proof.
  intros Hm Hfail. revert Hfail.
  run_paths t ctx.
  all: intros Hfail.
  all: try (destruct ep; use_answers; discriminate).
  all: split; [eauto |]; split; [intros doc Hin; which_call Hin |].
  all: split_last; split; [use_answers; eauto | each_call].
Qed.

(** Where an element can sit in a list whose head is known. *)
Lemma cons_eq_app_cons {A} (x c : A) (l before after : list A) :
  x :: l = before ++ c :: after ->
  before = [] /\ c = x /\ after = l \/
  exists before', before = x :: before' /\ l = before' ++ c :: after.
Proof.
  destruct before as [| y before']; simpl; intros [= -> ->]; [by left |].
  right. by exists before'.
Qed.

Lemma nil_eq_app_cons {A} (c : A) (before after : list A) :
  [] = before ++ c :: after -> False.
Proof. by destruct before. Qed.

(** The position of a call in an explicit list of calls, case by case. *)
Ltac split_at H :=
  repeat
    (apply cons_eq_app_cons in H as [(-> & ? & ->) | (? & -> & H)]);
  try (apply nil_eq_app_cons in H; contradiction);
  simplify_eq/=.

(** C2, as the code has it.  Run makes its calls in the order of its
    text: lookup and resolution of Prometheus, lookup and resolution of
    Alertmanager, the read of the feature flag, then (only when enabled)
    lookup and resolution of Grafana, then lookup and resolution of Thanos
    Querier, then assembly and upsert.  Each call is made only after every
    earlier one succeeded, and the run goes on until a call fails, whose
    wrapped error it returns, or until all these calls are made, and then
    it returns nil.  So the dashboard endpoint is attempted only with the
    flag set, after the query-serving and alert-routing endpoints have
    resolved and before any call for the long-term-query endpoint, which
    with the flag set is attempted only after the dashboard endpoint has
    resolved. *)
Theorem calls_follow_program_order t ctx :
  map rank (trace t ctx) `prefix_of` program_order (enabled t) /\
  (exists before c,
     trace t ctx = before ++ [c] /\
     Forall (fun c' => call_error t ctx c' = None) before /\
     ((exists cause,
         call_error t ctx c = Some cause /\
         outcome t ctx = Some (Wrap cause (annotation c))) \/
      (call_error t ctx c = None /\
       map rank (trace t ctx) = program_order (enabled t) /\
       outcome t ctx = None))) /\
  (forall before c after,
     trace t ctx = before ++ c :: after ->
     endpoint_of c = Some Grafana ->
     enabled t = true /\
     (exists route url,
        GetRouteURLCall Prometheus route ∈ before /\
        GetRouteURL (client t) ctx route = Ok url) /\
     (exists route url,
        GetRouteURLCall Alertmanager route ∈ before /\
        GetRouteURL (client t) ctx route = Ok url) /\
     (forall c', c' ∈ before -> endpoint_of c' ≠ Some ThanosQuerier)) /\
  (forall before c after,
     trace t ctx = before ++ c :: after ->
     endpoint_of c = Some ThanosQuerier ->
     enabled t = true ->
     exists route url,
       GetRouteURLCall Grafana route ∈ before /\
       GetRouteURL (client t) ctx route = Ok url).
Proof.
  split; [| split; [| split]].
  - run_paths t ctx; use_answers; eexists; reflexivity.
  - run_paths t ctx.
    all: split_last; split; [each_call |].
    all: first
      [ left; eexists; split; [use_answers; reflexivity | reflexivity]
      | right; use_answers; done ].
  - run_paths t ctx; intros before c after Hcalls Hep;
      split_at Hcalls; try discriminate.
    all: split; [assumption |].
    all: split; [eexists _, _; split; [find_call | eassumption] |].
    all: split; [eexists _, _; split; [find_call | eassumption] |].
    all: intros c' Hin; which_call Hin; done.
  - run_paths t ctx; intros before c after Hcalls Hep Hon;
      split_at Hcalls; try discriminate; try congruence.
    all: eexists _, _; split; [find_call | eassumption].
Qed.

(** C3.  With the dashboard disabled no call is made for the Grafana
    endpoint, an error returned by Run is never the error of a Grafana
    call, the document is assembled with no dashboard URL, and whether
    the run succeeds is decided by the mandatory endpoints and the upsert
    alone.  In the document of the spec the dashboard key is then
    absent. *)
Theorem disabled_dashboard_untouched t ctx :
  enabled t = false ->
  (forall c, c ∈ trace t ctx -> endpoint_of c ≠ Some Grafana) /\
  (forall e, outcome t ctx = Some e ->
     exists c cause,
       last (trace t ctx) = Some c /\ endpoint_of c ≠ Some Grafana /\
       call_error t ctx c = Some cause /\ e = Wrap cause (annotation c)) /\
  (forall p a g th, SharingConfigCall p a g th ∈ trace t ctx -> g = None) /\
  (forall cm, cm ∈ upserts (trace t ctx) ->
     exists p a th, cm = SharingConfig (factory t) p a None th) /\
  (forall p a th,
     resolution t ctx Prometheus = Ok p ->
     resolution t ctx Alertmanager = Ok a ->
     resolution t ctx ThanosQuerier = Ok th ->
     upserts (trace t ctx) = [SharingConfig (factory t) p a None th] /\
     (outcome t ctx = None <->
      CreateOrUpdateConfigMap (client t) ctx
        (SharingConfig (factory t) p a None th) = None)) /\
  (forall URLString namespace name dashboardKey,
     SharingConfig (factory t)
       = BuildSharedDocument URLString namespace name dashboardKey ->
     dashboardKey ∉ ["prometheus"; "alertmanager"; "thanosQuerier"] ->
     forall cm, cm ∈ upserts (trace t ctx) ->
       Data cm !! dashboardKey = None).
Proof.
  intros Hoff.
  assert (Hdoc : forall cm, cm ∈ upserts (trace t ctx) ->
            exists p a th, cm = SharingConfig (factory t) p a None th).
  { revert Hoff. run_paths t ctx; intros Hoff doc Hin;
      try congruence; which_call Hin; eauto. }
  split; [| split; [| split; [| split; [exact Hdoc | split]]]].
  - revert Hoff. run_paths t ctx; intros Hoff c Hin;
      try congruence; which_call Hin; done.
  - revert Hoff. run_paths t ctx; intros Hoff e' He;
      try congruence; simplify_eq.
    all: eexists _, _; split; [reflexivity |]; use_answers; done.
  - revert Hoff. run_paths t ctx; intros Hoff p a g th Hin;
      try congruence; which_call Hin; done.
  - revert Hoff. run_paths t ctx; intros Hoff p a th Hp Ha Hth;
      try congruence; use_answers; simplify_eq; try done.
    all: split; [done | split; [done | congruence]].
  - intros URLString namespace name key Hmodel Hkey cm Hin.
    destruct (Hdoc cm Hin) as (p & a & th & ->).
    rewrite Hmodel. simpl.
    apply not_elem_of_cons in Hkey as [? Hkey].
    apply not_elem_of_cons in Hkey as [? Hkey].
    apply not_elem_of_cons in Hkey as [? _].
    rewrite !lookup_insert_ne by done. by apply lookup_singleton_ne.
Qed.

(** C4.  With the dashboard enabled and its route resolved to
    [grafanaURL], the dashboard slot of every assembled document holds
    exactly [grafanaURL]; when the mandatory endpoints resolve as well the
    document is assembled and handed to the upsert.  In the document of
    the spec the dashboard key then maps to the printed [grafanaURL]. *)
Theorem enabled_dashboard_url_passed t ctx grafanaRoute grafanaURL :
  enabled t = true ->
  GrafanaRoute (factory t) = Ok grafanaRoute ->
  GetRouteURL (client t) ctx grafanaRoute = Ok grafanaURL ->
  (forall p a g th,
     SharingConfigCall p a g th ∈ trace t ctx -> g = Some grafanaURL) /\
  (forall cm, cm ∈ upserts (trace t ctx) ->
     exists p a th, cm = SharingConfig (factory t) p a (Some grafanaURL) th) /\
  (forall p a th,
     resolution t ctx Prometheus = Ok p ->
     resolution t ctx Alertmanager = Ok a ->
     resolution t ctx ThanosQuerier = Ok th ->
     SharingConfigCall p a (Some grafanaURL) th ∈ trace t ctx /\
     upserts (trace t ctx)
       = [SharingConfig (factory t) p a (Some grafanaURL) th]) /\
  (forall URLString namespace name dashboardKey,
     SharingConfig (factory t)
       = BuildSharedDocument URLString namespace name dashboardKey ->
     forall cm, cm ∈ upserts (trace t ctx) ->
       Data cm !! dashboardKey = Some (URLString grafanaURL)).
Proof.
  intros Hon Hroute Hurl.
  assert (Hdoc : forall cm, cm ∈ upserts (trace t ctx) ->
            exists p a th,
              cm = SharingConfig (factory t) p a (Some grafanaURL) th).
  { revert Hon Hroute Hurl. run_paths t ctx; intros Hon Hroute Hurl doc Hin;
      try congruence; which_call Hin; answers; eauto. }
  split; [| split; [exact Hdoc | split]].
  - revert Hon Hroute Hurl.
    run_paths t ctx; intros Hon Hroute Hurl p a g th Hin;
      try congruence; which_call Hin; answers; congruence.
  - revert Hon Hroute Hurl.
    run_paths t ctx; intros Hon Hroute Hurl p a th Hp Ha Hth;
      try congruence; answers; try done.
    all: split; [find_call | done].
  - intros URLString namespace name key Hmodel cm Hin.
    destruct (Hdoc cm Hin) as (p & a & th & ->).
    rewrite Hmodel. simpl. apply lookup_insert_eq.
Qed.

(** The annotation of a call names its endpoint, or its ConfigMap. *)
Lemma annotation_names_endpoint c ep :
  endpoint_of c = Some ep -> Contains (annotation c) (display ep) = true.
Proof.
  destruct c; intros [=]; subst; unfold annotation;
    apply Contains_app_r, Contains_here.
Qed.

Lemma annotation_names_target (cm : ConfigMap) :
  Contains (annotation (Route := Route) (URL := URL)
              (CreateOrUpdateConfigMapCall cm))
    (Namespace cm +:+ "/" +:+ Name cm) = true.
Proof.
  unfold annotation. apply Contains_app_r.
  rewrite (append_assoc "/"), (append_assoc (Namespace cm)).
  apply Contains_here.
Qed.

(** C5.  Two runs in succession against unchanged collaborators make the
    same calls and return the same error, whatever the log held before;
    when every endpoint resolves, each run hands one document to the
    upsert and the two documents are the same one, assembled from the
    resolved URLs alone. *)
Theorem Run_twice_same_document t ctx (log : list Call) :
  Run_twice t ctx log
    = ((outcome t ctx, outcome t ctx), log ++ trace t ctx ++ trace t ctx) /\
  length (upserts (trace t ctx)) <= 1 /\
  (all_resolve t ctx ->
     exists p a g th,
       resolution t ctx Prometheus = Ok p /\
       resolution t ctx Alertmanager = Ok a /\
       resolution t ctx ThanosQuerier = Ok th /\
       g = (if enabled t
            then match resolution t ctx Grafana with
                 | Ok u => Some u
                 | Err _ => None
                 end
            else None) /\
       upserts (trace t ctx ++ trace t ctx)
         = [SharingConfig (factory t) p a g th;
            SharingConfig (factory t) p a g th]).
Proof.
  split; [| split].
  - unfold Run_twice. rewrite (Run_frame t ctx log).
    rewrite (Run_frame t ctx (log ++ trace t ctx)).
    by rewrite <- (assoc_L (++)).
  - run_paths t ctx; lia.
  - intros Hall.
    pose proof (Hall Prometheus (or_introl eq_refl)) as HP.
    pose proof (Hall Alertmanager (or_introl eq_refl)) as HA.
    pose proof (Hall ThanosQuerier (or_introl eq_refl)) as HT.
    pose proof (fun Hon => Hall Grafana (or_intror Hon)) as HG.
    clear Hall. revert HP HA HT HG.
    run_paths t ctx; intros HP HA HT HG; answers;
      try specialize (HG eq_refl); try discriminate.
    all: eexists _, _, _, _; repeat (split; [reflexivity |]); reflexivity.
Qed.

(** C6.  An error returned by Run is the error of the last call made,
    wrapped with the annotation of that call: the stage and the name of
    the endpoint for a lookup or a resolution, the namespace and name of
    the ConfigMap for the upsert.  No error of a call is dropped: if any
    call made answered with an error, Run returns an error. *)
Theorem errors_are_wrapped_not_swallowed t ctx :
  (forall e, outcome t ctx = Some e ->
     exists c cause,
       last (trace t ctx) = Some c /\
       call_error t ctx c = Some cause /\
       e = Wrap cause (annotation c) /\
       Error e = annotation c +:+ ": " +:+ Error cause /\
       Cause e = Cause cause /\
       (forall ep, endpoint_of c = Some ep ->
          Contains (Error e) (display ep) = true) /\
       (forall cm, c = CreateOrUpdateConfigMapCall cm ->
          Contains (Error e) (Namespace cm +:+ "/" +:+ Name cm) = true) /\
       (is_Some (endpoint_of c) \/ mutating c = true)) /\
  (forall c, c ∈ trace t ctx -> is_Some (call_error t ctx c) ->
     is_Some (outcome t ctx)).
Proof.
  split.
  - intros e He.
    assert (exists c cause,
              last (trace t ctx) = Some c /\
              call_error t ctx c = Some cause /\
              e = Wrap cause (annotation c) /\
              (is_Some (endpoint_of c) \/ mutating c = true))
      as (c & cause & Hlast & Hc & -> & Hkind).
    { revert He. run_paths t ctx; intros He; simplify_eq.
      all: eexists _, _; split; [reflexivity |]; use_answers.
      all: split; [reflexivity |]; split; [reflexivity |]; eauto. }
    exists c, cause. repeat (split; [done |]).
    split; [| split; [| done]].
    + intros ep Hep. apply Contains_app_l.
      by apply annotation_names_endpoint.
    + intros cm ->. apply Contains_app_l, annotation_names_target.
  - run_paths t ctx; intros c Hin Herr; try done.
    all: which_call Hin; use_answers; by destruct Herr.
Qed.

(** [l = reads ++ writes] for an explicit list [l] whose only write, if
    any, is a final upsert. *)
Ltac split_writes :=
  first
    [ eexists [_; _; _; _; _; _; _; _], [CreateOrUpdateConfigMapCall _];
        split; [reflexivity |]
    | eexists [_; _; _; _; _; _; _; _; _; _], [CreateOrUpdateConfigMapCall _];
        split; [reflexivity |]
    | eexists _, []; split; [symmetry; apply app_nil_r |] ].

(** C9.  The calls of a run are a sequence of reads (lookups, resolutions,
    the flag, the assembly) followed by at most one write, the upsert,
    which is the last call.  A successful run ends with exactly one
    upsert, which succeeded; a failed run made no write, or made the
    upsert as its last call and the upsert answered with an error. *)
Theorem upsert_is_only_and_final_write t ctx :
  exists reads writes,
    trace t ctx = reads ++ writes /\
    Forall (fun c => mutating c = false) reads /\
    (writes = [] \/ exists cm, writes = [CreateOrUpdateConfigMapCall cm]) /\
    length (filter (fun c => mutating c = true) (trace t ctx)) <= 1 /\
    (outcome t ctx = None ->
       exists cm,
         writes = [CreateOrUpdateConfigMapCall cm] /\
         CreateOrUpdateConfigMap (client t) ctx cm = None) /\
    (forall e, outcome t ctx = Some e ->
       writes = [] \/
       exists cm cause,
         writes = [CreateOrUpdateConfigMapCall cm] /\
         CreateOrUpdateConfigMap (client t) ctx cm = Some cause).
Proof.
  run_paths t ctx.
  all: split_writes.
  all: split; [each_call |].
  all: split; [eauto |].
  all: split; [vm_compute; lia |].
  all: split; [intros ?; simplify_eq; eauto | intros ? ?; simplify_eq; eauto].
Qed.

(** C10.  With the dashboard enabled, a failing lookup or resolution of
    the Grafana endpoint makes Run return a wrapped error; no call is made
    for Thanos Querier and the upsert is not called.  When Prometheus and
    Alertmanager resolve, the error returned is the one of the Grafana
    call, which is the last call of the run. *)
Theorem enabled_dashboard_failure_aborts t ctx :
  enabled t = true ->
  is_Err (resolution t ctx Grafana) = true ->
  (exists cause message, outcome t ctx = Some (Wrap cause message)) /\
  (forall c, c ∈ trace t ctx -> endpoint_of c ≠ Some ThanosQuerier) /\
  (forall cm, CreateOrUpdateConfigMapCall cm ∉ trace t ctx) /\
  (is_Err (resolution t ctx Prometheus) = false ->
   is_Err (resolution t ctx Alertmanager) = false ->
   exists c cause,
     last (trace t ctx) = Some c /\
     endpoint_of c = Some Grafana /\
     call_error t ctx c = Some cause /\
     outcome t ctx = Some (Wrap cause (annotation c))).
Proof.
  intros Hon Hfail. revert Hon Hfail.
  run_paths t ctx; intros Hon Hfail; answers; try done.
  all: split; [by eexists _, _ |].
  all: split; [intros c Hin; which_call Hin; done |].
  all: split; [intros doc Hin; which_call Hin |].
  all: intros HP HA; try done.
  all: eexists _, _; split; [reflexivity |]; answers; done.
Qed.

(** C7.  Prometheus, Alertmanager and Thanos Querier resolve to the three
    example URLs, the dashboard is disabled and the upsert succeeds: Run
    returns nil and makes exactly one upsert, whose document in the form
    of the spec has the three mandatory keys and no other. *)
Theorem scenario_dashboard_disabled t ctx (URLString : URL -> string)
    (namespace name dashboardKey : string) (promURL amURL thanosURL : URL) :
  resolution t ctx Prometheus = Ok promURL ->
  resolution t ctx Alertmanager = Ok amURL ->
  resolution t ctx ThanosQuerier = Ok thanosURL ->
  URLString promURL = "https://prom.example.com" ->
  URLString amURL = "https://am.example.com" ->
  URLString thanosURL = "https://thanos.example.com" ->
  enabled t = false ->
  SharingConfig (factory t)
    = BuildSharedDocument URLString namespace name dashboardKey ->
  (forall cm, CreateOrUpdateConfigMap (client t) ctx cm = None) ->
  outcome t ctx = None /\
  exists cm,
    upserts (trace t ctx) = [cm] /\
    length (filter (fun c => mutating c = true) (trace t ctx)) = 1 /\
    Namespace cm = namespace /\ Name cm = name /\
    Data cm = {[ "prometheus" := "https://prom.example.com";
                 "alertmanager" := "https://am.example.com";
                 "thanosQuerier" := "https://thanos.example.com" ]}.
Proof.
  intros HP HA HT HpS HaS HtS Hoff Hmodel Hupsert.
  revert HP HA HT Hoff Hmodel Hupsert.
  run_paths t ctx; intros HP HA HT Hoff Hmodel Hupsert; answers;
    try done; try congruence.
  split; [done |]. eexists. split; [reflexivity |].
  split; [done |]. unfold BuildSharedDocument. simpl.
  by rewrite HpS, HaS, HtS.
Qed.

(** C8.  Prometheus resolves, the Alertmanager route is found and its URL
    resolution fails with [cause], whatever error that is: Run returns
    [cause] wrapped with "failed to retrieve Alertmanager host", so the
    message of the returned error mentions alertmanager, the endpoint that
    failed, which it spells "Alertmanager"; and no upsert is made. *)
Theorem scenario_alertmanager_resolution_fails t ctx (promURL : URL)
    (amRoute : Route) (cause : error) :
  resolution t ctx Prometheus = Ok promURL ->
  AlertmanagerRoute (factory t) = Ok amRoute ->
  GetRouteURL (client t) ctx amRoute = Err cause ->
  outcome t ctx = Some (Wrap cause "failed to retrieve Alertmanager host") /\
  (forall e, outcome t ctx = Some e ->
     Error e = "failed to retrieve Alertmanager host: " +:+ Error cause /\
     Cause e = Cause cause /\
     mentions (Error e) "alertmanager" = true /\
     Contains (Error e) (display Alertmanager) = true) /\
  upserts (trace t ctx) = [] /\
  (forall cm, CreateOrUpdateConfigMapCall cm ∉ trace t ctx).
Proof.
  intros HP HA Hfail.
  assert (Hout : outcome t ctx
                 = Some (Wrap cause "failed to retrieve Alertmanager host")
                 /\ upserts (trace t ctx) = []
                 /\ forall cm, CreateOrUpdateConfigMapCall cm ∉ trace t ctx).
  { revert HP HA Hfail.
    run_paths t ctx; intros HP HA Hfail; answers; try done.
    split; [done |]. split; [done |]. intros doc Hin. which_call Hin. }
  destruct Hout as (Hout & Hups & Hnone).
  split; [done |]. split; [| done].
  intros e He. rewrite Hout in He. injection He as <-.
  split; [reflexivity |]. split; [reflexivity |]. split.
  - unfold mentions.
    change (Error (Wrap cause "failed to retrieve Alertmanager host"))
      with ("failed to retrieve Alertmanager host: " +:+ Error cause).
    rewrite ToLower_app. by apply Contains_app_l.
  - change (Contains
              ("failed to retrieve Alertmanager host: " +:+ Error cause)
              "Alertmanager" = true).
    by apply Contains_app_l.
Qed.

(** ** Further properties of Run *)

(** X1.  A run of the task built by NewConfigSharingTask returns nil
    exactly when Prometheus, Alertmanager and Thanos Querier resolve,
    Grafana resolves if the flag is set, and the upsert of the document
    assembled from these URLs answers nil. *)
Theorem Run_succeeds_iff (cl : @Client context Route URL)
    (f : @Factory Route URL) (cfg : Config) ctx :
  outcome (NewConfigSharingTask cl f cfg) ctx = None <->
  exists p a g th,
    resolution (NewConfigSharingTask cl f cfg) ctx Prometheus = Ok p /\
    resolution (NewConfigSharingTask cl f cfg) ctx Alertmanager = Ok a /\
    resolution (NewConfigSharingTask cl f cfg) ctx ThanosQuerier = Ok th /\
    (enabled (NewConfigSharingTask cl f cfg) = false /\ g = None \/
     enabled (NewConfigSharingTask cl f cfg) = true /\
     exists u,
       resolution (NewConfigSharingTask cl f cfg) ctx Grafana = Ok u /\
       g = Some u) /\
    CreateOrUpdateConfigMap cl ctx (SharingConfig f p a g th) = None.
Proof.
  set (t := NewConfigSharingTask cl f cfg).
  change cl with (client t). change f with (factory t).
  clearbody t. clear cl f cfg. split.
  - run_paths t ctx; intros Hnil; try discriminate.
    all: eexists _, _, _, _; use_answers.
    all: repeat (split; [reflexivity |]); split; [| done].
    + by left.
    + right. split; [done |]. by eexists.
  - intros (p & a & g & th & HP & HA & HT & HG & Hups).
    revert HP HA HT HG Hups.
    run_paths t ctx; intros HP HA HT HG Hups; answers; try done.
    all: destruct HG as [[Hoff ->] | [Hon (u & Hu & ->)]];
      answers; congruence.
Qed.

(** X2.  A URL resolution is only ever asked for the route descriptor the
    factory returned for that same endpoint, and only after that lookup was
    made: wherever the resolution stands among the calls of a run, the call
    just before it is the route lookup of its endpoint. *)
Theorem resolved_routes_come_from_factory t ctx ep (route : Route)
    (before after : list Call) :
  trace t ctx = before ++ GetRouteURLCall ep route :: after ->
  RouteOf (factory t) ep = Ok route /\
  RouteCall ep ∈ before /\
  last before = Some (RouteCall ep).
Proof.
  run_paths t ctx; intros Hcalls; split_at Hcalls.
  all: split; [use_answers; done |].
  all: split; [find_call | reflexivity].
Qed.

(** X3.  When the document is assembled, every slot holds the URL resolved
    for its own endpoint (Prometheus, Alertmanager, Grafana if enabled and
    nil otherwise, Thanos Querier), and the ConfigMap handed to the upsert
    is the one SharingConfig returned for these URLs. *)
Theorem document_slots_match_endpoints t ctx (p a : URL) (g : option URL)
    (th : URL) :
  SharingConfigCall p a g th ∈ trace t ctx ->
  resolution t ctx Prometheus = Ok p /\
  resolution t ctx Alertmanager = Ok a /\
  resolution t ctx ThanosQuerier = Ok th /\
  (enabled t = false /\ g = None \/
   enabled t = true /\ exists u, resolution t ctx Grafana = Ok u /\ g = Some u) /\
  upserts (trace t ctx) = [SharingConfig (factory t) p a g th].
Proof.
  run_paths t ctx; intros Hin; which_call Hin; use_answers.
  all: repeat (split; [reflexivity |]); split; [| done].
  all: first [ by left | right; split; [done |]; by eexists ].
Qed.

(** X4.  Run never repeats a call: every call site is visited at most once
    in a run, which makes between one and eleven calls, and at most nine
    when the dashboard is disabled. *)
Theorem no_call_site_twice t ctx :
  NoDup (map rank (trace t ctx)) /\
  1 <= length (trace t ctx) <= (if enabled t then 11 else 9).
Proof.
  run_paths t ctx.
  all: split; [refine (bool_decide_unpack (NoDup _) _); vm_compute; exact I |].
  all: use_answers; try lia.
  all: destruct (IsEnabled _); lia.
Qed.

(** X5.  With the dashboard disabled, Run does not depend on the Grafana
    route of the factory: whatever the lookup would answer, the run returns
    the same error and makes the same calls. *)
Theorem disabled_dashboard_ignores_GrafanaRoute t ctx
    (grafanaRoute : result Route) (log : list Call) :
  enabled t = false ->
  Run (with_GrafanaRoute t grafanaRoute) ctx log = Run t ctx log.
Proof.
  intros Hoff. destruct t as [cl [pr ar gr tr sc] cfg].
  unfold with_GrafanaRoute, NewConfigSharingTask, enabled in *.
  simpl in *. unfold_run. simpl. by rewrite Hoff.
Qed.

(** X6.  Every call Run makes on the client is made with the context Run
    was given: two clients that answer alike under that context give the
    same run, whatever they answer under any other context. *)
Theorem Run_uses_the_given_context t1 t2 ctx (log : list Call) :
  factory t1 = factory t2 ->
  config t1 = config t2 ->
  (forall route,
     GetRouteURL (client t1) ctx route = GetRouteURL (client t2) ctx route) ->
  (forall cm,
     CreateOrUpdateConfigMap (client t1) ctx cm
       = CreateOrUpdateConfigMap (client t2) ctx cm) ->
  Run t1 ctx log = Run t2 ctx log.
Proof.
  destruct t1 as [c1 f1 cfg1], t2 as [c2 f2 cfg2]. simpl.
  intros <- <- Hroute Hupsert. unfold_run. simpl.
  repeat first
    [ rewrite Hroute
    | rewrite Hupsert
    | match goal with
      | |- context [match ?r with Ok _ => _ | Err _ => _ end] =>
          destruct r; simpl
      | |- context [if ?b then _ else _] => destruct b; simpl
      | |- context [match ?o with Some _ => _ | None => _ end] =>
          destruct o; simpl
      end ];
    reflexivity.
Qed.

(** X7.  When several endpoints fail, the error returned is the one of the
    first failing endpoint in the order Prometheus, Alertmanager, Grafana
    (if enabled), Thanos Querier: it is the error of the last call made,
    a call for that endpoint, wrapped with the message of that call. *)
Theorem first_failing_endpoint_is_reported t ctx ep (cause : error) :
  asked t ep = true ->
  resolution t ctx ep = Err cause ->
  (forall ep', asked t ep' = true ->
     endpoint_order ep' < endpoint_order ep ->
     is_Err (resolution t ctx ep') = false) ->
  exists c,
    last (trace t ctx) = Some c /\
    endpoint_of c = Some ep /\
    call_error t ctx c = Some cause /\
    outcome t ctx = Some (Wrap cause (annotation c)).
Proof.
  intros Hasked Hfail Hearlier.
  assert (HP : endpoint_order Prometheus < endpoint_order ep ->
               is_Err (resolution t ctx Prometheus) = false).
  { apply Hearlier. reflexivity. }
  assert (HA : endpoint_order Alertmanager < endpoint_order ep ->
               is_Err (resolution t ctx Alertmanager) = false).
  { apply Hearlier. reflexivity. }
  assert (HG : enabled t = true ->
               endpoint_order Grafana < endpoint_order ep ->
               is_Err (resolution t ctx Grafana) = false).
  { intros Hon. apply Hearlier. unfold asked. by rewrite Hon. }
  clear Hearlier. unfold asked in Hasked.
  revert Hasked Hfail HP HA HG.
  destruct ep; simpl; run_paths t ctx; intros Hasked Hfail HP HA HG;
    answers; try done.
  all: try (specialize (HP ltac:(lia)); discriminate).
  all: try (specialize (HA ltac:(lia)); discriminate).
  all: try (specialize (HG eq_refl ltac:(lia)); discriminate).
  all: eexists; split; [reflexivity |]; use_answers; done.
Qed.

(** The messages of the call sites are pairwise different: two calls that
    can fail and have the same message stand at the same place in Run. *)
Lemma annotation_identifies_call_site c1 c2 :
  can_fail c1 = true ->
  can_fail c2 = true ->
  annotation c1 = annotation c2 ->
  rank c1 = rank c2.
Proof.
  destruct c1 as [ep1 | ep1 r1 | | | cm1], c2 as [ep2 | ep2 r2 | | | cm2];
    try discriminate; intros _ _ Hsame; try reflexivity.
  all: try (destruct ep1, ep2; try reflexivity; cbv in Hsame; discriminate).
  all: try (destruct ep1; cbv in Hsame; discriminate).
  all: try (destruct ep2; cbv in Hsame; discriminate).
Qed.

(** A failed run ends in the call that failed, and returns its error
    wrapped with the message of that call. *)
Lemma failed_run_ends_in_failed_call t ctx (e : error) :
  outcome t ctx = Some e ->
  exists c cause,
    last (trace t ctx) = Some c /\
    can_fail c = true /\
    call_error t ctx c = Some cause /\
    e = Wrap cause (annotation c).
Proof.
  run_paths t ctx; intros He; simplify_eq.
  all: eexists _, _; split; [reflexivity |]; split; [reflexivity |].
  all: use_answers; split; reflexivity.
Qed.

(** X8.  The message Run wraps an error with identifies the failing step:
    whenever two runs, of any two tasks, return errors wrapped with the
    same message, each run ended in a failed call, the two calls are the
    same call site of Run, and each error wraps the error of its call. *)
Theorem wrap_message_identifies_failing_step t1 ctx1 t2 ctx2
    (cause1 cause2 : error) (message : string) :
  outcome t1 ctx1 = Some (Wrap cause1 message) ->
  outcome t2 ctx2 = Some (Wrap cause2 message) ->
  exists c1 c2,
    last (trace t1 ctx1) = Some c1 /\
    last (trace t2 ctx2) = Some c2 /\
    call_error t1 ctx1 c1 = Some cause1 /\
    call_error t2 ctx2 c2 = Some cause2 /\
    message = annotation c1 /\
    rank c1 = rank c2.
Proof.
  intros H1 H2.
  destruct (failed_run_ends_in_failed_call t1 ctx1 _ H1)
    as (c1 & e1 & Hlast1 & Hfail1 & Herr1 & [= -> ->]).
  destruct (failed_run_ends_in_failed_call t2 ctx2 _ H2)
    as (c2 & e2 & Hlast2 & Hfail2 & Herr2 & [= -> Hsame]).
  exists c1, c2. repeat (split; [done |]).
  by apply annotation_identifies_call_site.
Qed.

End Properties.

(** ** The properties on the concrete collaborators *)

(** The calls of a complete run with the dashboard enabled, by call site:
    Grafana (5, 6) comes before Thanos Querier (7, 8). *)
Example dashboard_task_call_sites :
  map rank (trace dashboard_task tt) = [0; 1; 2; 3; 4; 5; 6; 7; 8; 9; 10].
Proof. reflexivity. Qed.

(** C2, as the spec has it, fails: with every endpoint resolving and the
    dashboard enabled, the Grafana route is looked up when only Prometheus
    and Alertmanager have been resolved; no call for Thanos Querier has
    been made yet. *)
Lemma dashboard_attempted_before_thanos :
  ~ mandatory_first (trace dashboard_task tt).
Proof.
  intros Hfirst.
  destruct (Hfirst
              [RouteCall Prometheus; GetRouteURLCall Prometheus Prometheus;
               RouteCall Alertmanager; GetRouteURLCall Alertmanager Alertmanager;
               IsEnabledCall]
              (RouteCall Grafana)
              (skipn 6 (trace dashboard_task tt))
              eq_refl eq_refl) as [route Hin].
  which_call Hin.
Qed.

(** C1 on [alertmanager_down_task]: the run stops at the Alertmanager
    resolution. *)
Lemma mandatory_failure_aborts_witness :
  mandatory Alertmanager = true /\
  is_Err (resolution alertmanager_down_task tt Alertmanager) = true /\
  (exists e, outcome alertmanager_down_task tt = Some e) /\
  (forall cm,
     CreateOrUpdateConfigMapCall cm ∉ trace alertmanager_down_task tt) /\
  exists before c,
    trace alertmanager_down_task tt = before ++ [c] /\
    is_Some (call_error alertmanager_down_task tt c) /\
    Forall (fun c' => call_error alertmanager_down_task tt c' = None) before.
Proof.
  split; [reflexivity |]. split; [reflexivity |].
  apply (mandatory_failure_aborts alertmanager_down_task tt Alertmanager);
    reflexivity.
Defined.

(** C3 on [healthy_task]: no Grafana call, no [grafana] key. *)
Lemma disabled_dashboard_untouched_witness :
  enabled healthy_task = false /\
  (forall c, c ∈ trace healthy_task tt -> endpoint_of c ≠ Some Grafana) /\
  (forall cm, cm ∈ upserts (trace healthy_task tt) ->
     Data cm !! "grafana" = None).
Proof.
  split; [reflexivity |].
  destruct (disabled_dashboard_untouched healthy_task tt eq_refl)
    as (Hcalls & _ & _ & _ & _ & Hkey).
  split; [exact Hcalls |].
  apply (Hkey id "monitoring" "shared-config" "grafana" eq_refl).
  intros Hin. which_call Hin.
Defined.

(** C4 on [dashboard_task]: the resolved Grafana URL reaches the document. *)
Lemma enabled_dashboard_url_passed_witness :
  enabled dashboard_task = true /\
  GrafanaRoute (factory dashboard_task) = Ok Grafana /\
  GetRouteURL (client dashboard_task) tt Grafana
    = Ok "https://grafana.example.com" /\
  SharingConfigCall "https://prom.example.com" "https://am.example.com"
    (Some "https://grafana.example.com") "https://thanos.example.com"
    ∈ trace dashboard_task tt /\
  (forall cm, cm ∈ upserts (trace dashboard_task tt) ->
     Data cm !! "grafana" = Some "https://grafana.example.com").
Proof.
  split; [reflexivity |]. split; [reflexivity |]. split; [reflexivity |].
  destruct (enabled_dashboard_url_passed dashboard_task tt Grafana
              "https://grafana.example.com" eq_refl eq_refl eq_refl)
    as (_ & _ & Hcall & Hkey).
  split.
  - apply (Hcall "https://prom.example.com" "https://am.example.com"
             "https://thanos.example.com" eq_refl eq_refl eq_refl).
  - apply (Hkey id "monitoring" "shared-config" "grafana" eq_refl).
Defined.

(** C5 on [dashboard_task]: two runs, two upserts of one document. *)
Lemma Run_twice_same_document_witness :
  all_resolve dashboard_task tt /\
  exists cm,
    upserts (snd (Run_twice dashboard_task tt [])) = [cm; cm] /\
    Data cm !! "grafana" = Some "https://grafana.example.com".
Proof.
  assert (Hall : all_resolve dashboard_task tt).
  { intros ep _. by destruct ep. }
  split; [exact Hall |].
  destruct (Run_twice_same_document dashboard_task tt [])
    as (Htwice & _ & Hsame).
  destruct (Hsame Hall) as (p & a & g & th & Hp & Ha & Hth & Hg & Hdocs).
  exists (SharingConfig (factory dashboard_task) p a g th).
  split.
  - rewrite Htwice. exact Hdocs.
  - injection Hp as <-. injection Ha as <-. injection Hth as <-. subst g.
    reflexivity.
Defined.

(** C6 on [upsert_refused_task]: the refusal comes back wrapped with the
    identity of the ConfigMap. *)
Lemma errors_are_wrapped_not_swallowed_witness :
  exists e,
    outcome upsert_refused_task tt = Some e /\
    Error e
      = "reconciling monitoring/shared-config Config ConfigMap failed: conflict" /\
    Contains (Error e) "monitoring/shared-config" = true.
Proof.
  destruct (errors_are_wrapped_not_swallowed upsert_refused_task tt)
    as [Hwrapped _].
  destruct (Hwrapped _ eq_refl)
    as (c & cause & Hlast & Hcause & He & Hmsg & _ & _ & Htarget & _).
  injection Hlast as <-.
  eexists. split; [reflexivity |]. split; [reflexivity |].
  exact (Htarget _ eq_refl).
Defined.

(** C7 on [healthy_task]. *)
Lemma scenario_dashboard_disabled_witness :
  outcome healthy_task tt = None /\
  exists cm,
    upserts (trace healthy_task tt) = [cm] /\
    length (filter (fun c => mutating c = true) (trace healthy_task tt)) = 1 /\
    Namespace cm = "monitoring" /\ Name cm = "shared-config" /\
    Data cm = {[ "prometheus" := "https://prom.example.com";
                 "alertmanager" := "https://am.example.com";
                 "thanosQuerier" := "https://thanos.example.com" ]}.
Proof.
  apply (scenario_dashboard_disabled healthy_task tt id "monitoring"
           "shared-config" "grafana" "https://prom.example.com"
           "https://am.example.com" "https://thanos.example.com");
    reflexivity.
Defined.

(** C8 on [alertmanager_down_task]: the network error comes back wrapped,
    the message mentions alertmanager. *)
Lemma scenario_alertmanager_resolution_fails_witness :
  outcome alertmanager_down_task tt
    = Some (Wrap network_error "failed to retrieve Alertmanager host") /\
  (forall e, outcome alertmanager_down_task tt = Some e ->
     Error e = "failed to retrieve Alertmanager host: " +:+ Error network_error /\
     Cause e = Cause network_error /\
     mentions (Error e) "alertmanager" = true /\
     Contains (Error e) (display Alertmanager) = true) /\
  upserts (trace alertmanager_down_task tt) = [] /\
  (forall cm,
     CreateOrUpdateConfigMapCall cm ∉ trace alertmanager_down_task tt).
Proof.
  apply (scenario_alertmanager_resolution_fails alertmanager_down_task tt
           "https://prom.example.com" Alertmanager network_error);
    reflexivity.
Defined.

(** C9 on [upsert_refused_task]: reads, then the one refused upsert. *)
Lemma upsert_is_only_and_final_write_witness :
  exists reads cm,
    trace upsert_refused_task tt = reads ++ [CreateOrUpdateConfigMapCall cm] /\
    Forall (fun c => mutating c = false) reads /\
    CreateOrUpdateConfigMap (client upsert_refused_task) tt cm
      = Some (New "conflict").
Proof.
  destruct (upsert_is_only_and_final_write upsert_refused_task tt)
    as (reads & writes & Hcalls & Hreads & _ & _ & _ & Hfailed).
  destruct (Hfailed _ eq_refl) as [-> | (cm & cause & -> & Hrefused)].
  - rewrite app_nil_r in Hcalls. subst reads.
    apply Forall_app in Hreads as [_ Hreads].
    by apply Forall_cons in Hreads as [? _].
  - by exists reads, cm.
Defined.

(** C10 on [grafana_down_task]: the run stops at the Grafana resolution. *)
Lemma enabled_dashboard_failure_aborts_witness :
  enabled grafana_down_task = true /\
  is_Err (resolution grafana_down_task tt Grafana) = true /\
  outcome grafana_down_task tt
    = Some (Wrap network_error "failed to retrieve Grafana host") /\
  (forall c, c ∈ trace grafana_down_task tt ->
     endpoint_of c ≠ Some ThanosQuerier) /\
  (forall cm, CreateOrUpdateConfigMapCall cm ∉ trace grafana_down_task tt).
Proof.
  split; [reflexivity |]. split; [reflexivity |].
  destruct (enabled_dashboard_failure_aborts grafana_down_task tt
              eq_refl eq_refl) as (_ & Hthanos & Hupsert & _).
  split; [reflexivity |]. split; [exact Hthanos | exact Hupsert].
Defined.

(** ** Properties of the end-to-end checks *)

Import e2e.

(** X9.  A subtest of TestAntiAffinity passes exactly when the List call
    with the selectors of its row answers two pods and the first of them
    has non-nil required anti-affinity terms (an empty list is enough). *)
Theorem antiAffinitySubtest_passes_iff {PodAffinityTerm : Type}
    (List : ListOptions -> result (list (@Pod PodAffinityTerm)))
    (tc : antiAffinityCase) :
  antiAffinitySubtest List tc = Pass <->
  exists pod other affinity antiAffinity terms,
    List (antiAffinityOptions tc) = Ok [pod; other] /\
    Affinity_ (Spec pod) = Some affinity /\
    PodAntiAffinity_ affinity = Some antiAffinity /\
    RequiredDuringSchedulingIgnoredDuringExecution antiAffinity = Some terms.
Proof.
  unfold antiAffinitySubtest. split.
  - destruct (List (antiAffinityOptions tc)) as [items | err]; [| done].
    destruct items as [| pod [| other [| third rest]]]; simpl; try done.
    destruct (Affinity_ (Spec pod)) as [affinity |] eqn:Haff; [| done].
    destruct (PodAntiAffinity_ affinity) as [antiAffinity |] eqn:Hanti;
      [| done].
    destruct (RequiredDuringSchedulingIgnoredDuringExecution antiAffinity)
      as [terms |] eqn:Hterms; [| done].
    intros _. by exists pod, other, affinity, antiAffinity, terms.
  - intros (pod & other & affinity & antiAffinity & terms
            & -> & Haff & Hanti & Hterms).
    simpl. by rewrite Haff, Hanti, Hterms.
Qed.

(** X10.  A subtest of TestAntiAffinity never looks at the second pod: two
    answers of List that agree on the first of two pods give the same
    verdict. *)
Theorem antiAffinitySubtest_ignores_second_pod {PodAffinityTerm : Type}
    (List List' : ListOptions -> result (list (@Pod PodAffinityTerm)))
    (tc : antiAffinityCase) (pod other other' : Pod) :
  List (antiAffinityOptions tc) = Ok [pod; other] ->
  List' (antiAffinityOptions tc) = Ok [pod; other'] ->
  antiAffinitySubtest List tc = antiAffinitySubtest List' tc.
Proof.
  intros H H'. unfold antiAffinitySubtest. by rewrite H, H'.
Qed.

(** The loop after the change accepts exactly the lists whose limits are all
    [bodySizeLimitSmallNumber]. *)
Lemma expectBodySizeLimit_None (scrapeConfigs : list ScrapeConfig) :
  expectBodySizeLimit scrapeConfigs = None <->
  Forall (fun sc => BodySizeLimit sc = 1048576%Z) scrapeConfigs.
Proof.
  induction scrapeConfigs as [| sc rest IH].
  - split; [constructor | done].
  - change (expectBodySizeLimit (sc :: rest))
      with (if negb (BodySizeLimit sc =? 1048576)%Z
            then Some (Errorf "expected scrapeConfig.BodySizeLimit to be %v but got %v after changing config"
                         [1048576%Z; BodySizeLimit sc])
            else expectBodySizeLimit rest).
    destruct (Z.eqb_spec (BodySizeLimit sc) 1048576) as [Heq | Hne]; simpl.
    + rewrite IH. split; [by constructor |]. by inversion 1.
    + split; [done |]. by inversion 1.
Qed.

(** X11.  The function TestBodySizeLimit polls answers nil exactly when
    getPrometheusConfig succeeded and every scrape configuration has a body
    size limit of 1048576 bytes (1 * 1024 * 1024); in particular it answers
    nil for a configuration with no scrape configurations. *)
Theorem bodySizeLimitEnforced_passes_iff (prometheusConfig : result PromConfig) :
  bodySizeLimitEnforced prometheusConfig = None <->
  exists config,
    prometheusConfig = Ok config /\
    Forall (fun sc => BodySizeLimit sc = 1048576%Z) (ScrapeConfigs config).
Proof.
  destruct prometheusConfig as [config | err]; simpl.
  - rewrite expectBodySizeLimit_None. split.
    + intros Hall. by exists config.
    + by intros (config' & [= <-] & Hall).
  - split; [done |]. by intros (config' & [=] & _).
Qed.

(** X12.  When a scrape configuration has another limit, the polled
    function answers with the error for the first such configuration,
    naming the expected limit and the limit found. *)
Theorem bodySizeLimitEnforced_reports_first_mismatch (config : PromConfig)
    (before after : list ScrapeConfig) (scrapeConfig : ScrapeConfig) :
  ScrapeConfigs config = before ++ scrapeConfig :: after ->
  Forall (fun sc => BodySizeLimit sc = 1048576%Z) before ->
  BodySizeLimit scrapeConfig ≠ 1048576%Z ->
  bodySizeLimitEnforced (Ok config)
    = Some (Errorf "expected scrapeConfig.BodySizeLimit to be %v but got %v after changing config"
              [1048576%Z; BodySizeLimit scrapeConfig]).
Proof.
  intros Hconfig Hbefore Hne.
  change (bodySizeLimitEnforced (Ok config))
    with (expectBodySizeLimit (ScrapeConfigs config)).
  rewrite Hconfig. clear Hconfig.
  induction Hbefore as [| sc before Hsc Hbefore IH].
  - change (expectBodySizeLimit ([] ++ scrapeConfig :: after))
      with (if negb (BodySizeLimit scrapeConfig =? 1048576)%Z
            then Some (Errorf "expected scrapeConfig.BodySizeLimit to be %v but got %v after changing config"
                         [1048576%Z; BodySizeLimit scrapeConfig])
            else expectBodySizeLimit after).
    by destruct (Z.eqb_spec (BodySizeLimit scrapeConfig) 1048576).
  - change (expectBodySizeLimit ((sc :: before) ++ scrapeConfig :: after))
      with (if negb (BodySizeLimit sc =? 1048576)%Z
            then Some (Errorf "expected scrapeConfig.BodySizeLimit to be %v but got %v after changing config"
                         [1048576%Z; BodySizeLimit sc])
            else expectBodySizeLimit (before ++ scrapeConfig :: after)).
    rewrite Hsc. exact IH.
Qed.

(** The loop before the change accepts exactly the lists whose limits are
    all zero. *)
Lemma expectNoBodySizeLimit_Pass (scrapeConfigs : list ScrapeConfig) :
  expectNoBodySizeLimit scrapeConfigs = Pass <->
  Forall (fun sc => BodySizeLimit sc = 0%Z) scrapeConfigs.
Proof.
  induction scrapeConfigs as [| sc rest IH]; simpl.
  - split; [constructor | done].
  - destruct (Z.eqb_spec (BodySizeLimit sc) 0) as [Heq | Hne]; simpl.
    + rewrite IH. split; [by constructor |]. by inversion 1.
    + split; [done |]. by inversion 1.
Qed.

(** X13.  The check before the change and the check after it accept the
    same scrape configurations only when there are none: every non-empty
    configuration that passes the first loop of TestBodySizeLimit fails the
    polled function until the limit is applied. *)
Theorem body_size_checks_agree_only_on_empty
    (scrapeConfigs : list ScrapeConfig) :
  expectNoBodySizeLimit scrapeConfigs = Pass /\
  bodySizeLimitEnforced (Ok {| ScrapeConfigs := scrapeConfigs |}) = None <->
  scrapeConfigs = [].
Proof.
  simpl. rewrite expectNoBodySizeLimit_Pass, expectBodySizeLimit_None. split.
  - intros [Hzero Hlimit]. destruct scrapeConfigs as [| sc rest]; [done |].
    apply Forall_cons in Hzero as [Hzero _].
    apply Forall_cons in Hlimit as [Hlimit _]. congruence.
  - intros ->. split; constructor.
Qed.

(** X14.  getPrometheusConfig reads the secret only under the key
    prometheus.yaml.gz, a missing key counting as empty bytes; it returns
    an error exactly when gzip.NewReader, then io.ReadAll on the reader,
    then promConfig.Load on the text read fails, and the error returned is
    that stage's error, unchanged. *)
Theorem getPrometheusConfig_reads_one_key {Reader : Type}
    (gzip_NewReader : list Byte.byte -> result Reader)
    (io_ReadAll : Reader -> result (list Byte.byte))
    (promConfig_Load : string -> bool -> result PromConfig)
    (secretData secretData' : gmap string (list Byte.byte)) :
  default [] (secretData !! "prometheus.yaml.gz")
    = default [] (secretData' !! "prometheus.yaml.gz") ->
  getPrometheusConfig gzip_NewReader io_ReadAll promConfig_Load secretData
    = getPrometheusConfig gzip_NewReader io_ReadAll promConfig_Load secretData' /\
  forall err,
    getPrometheusConfig gzip_NewReader io_ReadAll promConfig_Load secretData
      = Err err <->
    gzip_NewReader (default [] (secretData !! "prometheus.yaml.gz")) = Err err \/
    (exists reader,
       gzip_NewReader (default [] (secretData !! "prometheus.yaml.gz"))
         = Ok reader /\
       io_ReadAll reader = Err err) \/
    (exists reader unzippedData,
       gzip_NewReader (default [] (secretData !! "prometheus.yaml.gz"))
         = Ok reader /\
       io_ReadAll reader = Ok unzippedData /\
       promConfig_Load (String.string_of_list_byte unzippedData) false
         = Err err).
Proof.
  intros Hkey. unfold getPrometheusConfig. rewrite <- Hkey. split; [done |].
  intros err.
  destruct (gzip_NewReader _) as [reader | e1].
  - destruct (io_ReadAll reader) as [unzipped | e2] eqn:Hread.
    + destruct (promConfig_Load _ false) as [config | e3] eqn:Hload.
      * split; [done |].
        intros [[=] | [(r & [= <-] & Hr) | (r & u & [= <-] & Hr & Hl)]];
          congruence.
      * split.
        -- intros [= <-]. right. right. by exists reader, unzipped.
        -- intros [[=] | [(r & [= <-] & Hr) | (r & u & [= <-] & Hr & Hl)]];
             congruence.
    + split.
      * intros [= <-]. right. left. by exists reader.
      * intros [[=] | [(r & [= <-] & Hr) | (r & u & [= <-] & Hr & Hl)]];
          congruence.
  - split.
    + intros [= <-]. by left.
    + intros [[= <-] | [(r & [=] & _) | (r & u & [=] & _)]]. done.
Qed.

(** ** The further properties on concrete inputs *)

(** X2 on [dashboard_task]: the Grafana resolution is asked for the Grafana
    route, right after the Grafana lookup. *)
Lemma resolved_routes_come_from_factory_witness :
  RouteOf (factory dashboard_task) Grafana = Ok Grafana /\
  RouteCall Grafana ∈ firstn 6 (trace dashboard_task tt) /\
  last (firstn 6 (trace dashboard_task tt)) = Some (RouteCall Grafana).
Proof.
  apply (resolved_routes_come_from_factory dashboard_task tt Grafana Grafana
           (firstn 6 (trace dashboard_task tt))
           (skipn 7 (trace dashboard_task tt))).
  reflexivity.
Defined.

(** X3 on [dashboard_task]: the four slots hold the four example URLs. *)
Lemma document_slots_match_endpoints_witness :
  resolution dashboard_task tt Prometheus = Ok "https://prom.example.com" /\
  resolution dashboard_task tt Alertmanager = Ok "https://am.example.com" /\
  resolution dashboard_task tt ThanosQuerier = Ok "https://thanos.example.com" /\
  upserts (trace dashboard_task tt)
    = [SharingConfig (factory dashboard_task) "https://prom.example.com"
         "https://am.example.com" (Some "https://grafana.example.com")
         "https://thanos.example.com"].
Proof.
  assert (Hin : SharingConfigCall "https://prom.example.com"
                  "https://am.example.com" (Some "https://grafana.example.com")
                  "https://thanos.example.com" ∈ trace dashboard_task tt).
  { change (trace dashboard_task tt)
      with (firstn 9 (trace dashboard_task tt)
              ++ SharingConfigCall "https://prom.example.com"
                   "https://am.example.com"
                   (Some "https://grafana.example.com")
                   "https://thanos.example.com"
              :: skipn 10 (trace dashboard_task tt)).
    apply elem_of_app. right. apply list_elem_of_here. }
  destruct (document_slots_match_endpoints dashboard_task tt _ _ _ _ Hin)
    as (HP & HA & HT & _ & Hups).
  repeat split; assumption.
Defined.

(** X5 on [healthy_task]: a failing Grafana lookup changes nothing. *)
Lemma disabled_dashboard_ignores_GrafanaRoute_witness :
  enabled healthy_task = false /\
  Run (with_GrafanaRoute healthy_task (Err network_error)) tt []
    = Run healthy_task tt [].
Proof.
  split; [reflexivity |].
  apply (disabled_dashboard_ignores_GrafanaRoute healthy_task tt
           (Err network_error) []).
  reflexivity.
Defined.

(** X6: under the context [true] the two clients give the same run, though
    they differ under [false]. *)
Lemma Run_uses_the_given_context_witness :
  Run context_sensitive_task true [] = Run context_blind_task true [] /\
  outcome context_sensitive_task false ≠ outcome context_blind_task false.
Proof.
  split.
  - apply (Run_uses_the_given_context context_sensitive_task
             context_blind_task true []); reflexivity.
  - discriminate.
Defined.

(** X7 on [two_down_task]: Alertmanager and Thanos Querier fail, the error
    of Alertmanager is returned. *)
Lemma first_failing_endpoint_is_reported_witness :
  is_Err (resolution two_down_task tt ThanosQuerier) = true /\
  exists c,
    last (trace two_down_task tt) = Some c /\
    endpoint_of c = Some Alertmanager /\
    call_error two_down_task tt c = Some network_error /\
    outcome two_down_task tt = Some (Wrap network_error (annotation c)).
Proof.
  split; [reflexivity |].
  apply (first_failing_endpoint_is_reported two_down_task tt Alertmanager
           network_error); [reflexivity | reflexivity |].
  intros ep' _ Hbefore. destruct ep'; simpl in Hbefore; [reflexivity | lia ..].
Defined.

(** X8: the Alertmanager resolution fails in two different tasks, once
    with the dashboard disabled and a network error, once with it enabled
    and a refused connection; the message is the same and so is the step. *)
Lemma wrap_message_identifies_failing_step_witness :
  exists c1 c2,
    last (trace alertmanager_down_task tt) = Some c1 /\
    last (trace alertmanager_refused_task tt) = Some c2 /\
    call_error alertmanager_down_task tt c1 = Some network_error /\
    call_error alertmanager_refused_task tt c2
      = Some (New "connection refused") /\
    "failed to retrieve Alertmanager host" = annotation c1 /\
    rank c1 = rank c2.
Proof.
  apply (wrap_message_identifies_failing_step alertmanager_down_task tt
           alertmanager_refused_task tt network_error
           (New "connection refused")
           "failed to retrieve Alertmanager host");
    reflexivity.
Defined.

(** X10: the verdict is [Pass] whether or not the second pod is spread. *)
Lemma antiAffinitySubtest_ignores_second_pod_witness :
  antiAffinitySubtest (fun _ => Ok [spread_pod; bare_pod])
    {| name := "prometheus"; instance := "k8s" |}
  = antiAffinitySubtest (fun _ => Ok [spread_pod; spread_pod])
      {| name := "prometheus"; instance := "k8s" |}.
Proof.
  apply (antiAffinitySubtest_ignores_second_pod
           (fun _ => Ok [spread_pod; bare_pod])
           (fun _ => Ok [spread_pod; spread_pod])
           {| name := "prometheus"; instance := "k8s" |}
           spread_pod bare_pod spread_pod); reflexivity.
Defined.

(** X12 on [partly_limited_config]: the second scrape configuration is the
    one reported. *)
Lemma bodySizeLimitEnforced_reports_first_mismatch_witness :
  bodySizeLimitEnforced (Ok partly_limited_config)
    = Some (Errorf "expected scrapeConfig.BodySizeLimit to be %v but got %v after changing config"
              [1048576%Z; 0%Z]).
Proof.
  apply (bodySizeLimitEnforced_reports_first_mismatch partly_limited_config
           [ {| BodySizeLimit := 1048576 |} ]
           [ {| BodySizeLimit := 5 |} ]
           {| BodySizeLimit := 0 |}).
  - reflexivity.
  - repeat constructor.
  - discriminate.
Defined.

(** X14: a secret without the key is read like one with an empty value, and
    the error of the loader comes back as it is. *)
Lemma getPrometheusConfig_reads_one_key_witness :
  getPrometheusConfig (Reader := list Byte.byte) Ok Ok
    (fun _ _ => Err (New "parse error")) ∅
  = getPrometheusConfig (Reader := list Byte.byte) Ok Ok
      (fun _ _ => Err (New "parse error"))
      {[ "prometheus.yaml.gz" := [] ]}.
Proof.
  assert (Hkey : default [] ((∅ : gmap string (list Byte.byte))
                               !! "prometheus.yaml.gz")
                 = default [] (({[ "prometheus.yaml.gz" := [] ]}
                                  : gmap string (list Byte.byte))
                                 !! "prometheus.yaml.gz")).
  { reflexivity. }
  exact (proj1 (getPrometheusConfig_reads_one_key (Reader := list Byte.byte)
                  Ok Ok (fun _ _ => Err (New "parse error")) ∅
                  {[ "prometheus.yaml.gz" := [] ]} Hkey)).
Defined.
